(** * Control logic of the GPS bus tracker (Complete_GPS_Bus_Tracker.ino)

    A shallow embedding of the sketch's control logic: fix validation,
    the modem command channel, message submission, the inbound command
    interpreter, the report scheduler, the health monitor and the error log.

    Conventions of the embedding.
    - [unsigned long] values are integers in [0, 2^32); every arithmetic
      result stored in one is reduced by [u32].  [int] values are plain [Z].
    - [float] and [double] values are rationals ([Q]); every constant the
      sketch compares them with (0, 2, 80, 90, 180, 200) is exact in both.
    - The sketch's globals are the fields of [Device], grouped as in the
      source ("System state variables", "Timing variables", "GPS data
      variables", "System statistics", "Error tracking").
    - The hardware is the [World] part of the device: a millisecond clock,
      the bytes the modem will deliver (each with its arrival time), the
      sentences the GPS decoder will complete (each with its arrival time and
      the values its accessors return), what was written to the modem, and
      the persisted statistics.  [delay] and the busy-wait loops advance the
      clock; a busy-wait loop reads every byte that arrives before its
      deadline.  The watchdog and the size of the serial buffers are not
      modelled.
    - Text written to the debug console is not modelled.  Message bodies are
      kept structured ([Body]): the constructor names the template and its
      arguments are the values the sketch splices into it.
    - Functions keep their names.  [setup], [loop], [updateLEDStatus], the
      console printers and [handleSMSCommunication] (which only extracts the
      index from a notification and calls [processSMSCommand]) are not
      embedded.
    - The properties are proved for every value of [Device], not only for
      the states a run from power-on reaches. *)

From stdpp Require Import list.
From Stdlib Require Import ZArith QArith Qabs String Ascii Lia DecimalString.
Import ListNotations.

Open Scope list_scope.
Open Scope string_scope.
Open Scope Z_scope.

(** ** Machine arithmetic and Arduino [String] operations *)

Definition u32 (z : Z) : Z := z mod 2 ^ 32.

(** [!x] on an [int]: true exactly when [x] is zero. *)
Definition c_not (x : Z) : bool := x =? 0.

(** [(unsigned long) x] for a real [x]: truncation toward zero. *)
Definition truncULong (x : Q) : Z := u32 (Z.quot (Qnum x) (Z.pos (Qden x))).

Definition Qlt_bool (x y : Q) : bool := negb (Qle_bool y x).

(** [s.indexOf(pat)]: position of the first occurrence, [-1] when absent. *)
Definition indexOf (s pat : string) : Z :=
  match index 0 pat s with
  | Some p => Z.of_nat p
  | None => -1
  end.

Definition upperAscii (c : ascii) : ascii :=
  let n := nat_of_ascii c in
  if andb (Nat.leb 97 n) (Nat.leb n 122) then ascii_of_nat (n - 32) else c.

Fixpoint toUpperCase (s : string) : string :=
  match s with
  | EmptyString => EmptyString
  | String c s' => String (upperAscii c) (toUpperCase s')
  end.

(** [String(n)] for an integer. *)
Definition String_of_Z (z : Z) : string := NilZero.string_of_int (Z.to_int z).

Definition formatNumber (number : Z) : string :=
  if number <? 10 then "0" ++ String_of_Z number else String_of_Z number.

Definition formatUptime (milliseconds : Z) : string :=
  let seconds := milliseconds / 1000 in
  let minutes := seconds / 60 in
  let hours := minutes / 60 in
  let days := hours / 24 in
  let uptime := EmptyString in
  let uptime := if 0 <? days then uptime ++ String_of_Z days ++ "d " else uptime in
  let uptime := if 0 <? hours then uptime ++ String_of_Z (hours mod 24) ++ "h " else uptime in
  let uptime := if 0 <? minutes then uptime ++ String_of_Z (minutes mod 60) ++ "m " else uptime in
  uptime ++ String_of_Z (seconds mod 60) ++ "s".

(** ** Configuration *)

Definition BUS_ID : string := "BUS-001".
Definition ROUTE_NAME : string := "Main-Route".
Definition ADMIN_PHONE : string := "+91XXXXXXXXXX".
Definition BACKUP_PHONE : string := "+91YYYYYYYYYY".
Definition EMERGENCY_PHONE : string := "+91ZZZZZZZZZZ".

Definition GPS_TIMEOUT : Z := 180000.
Definition NORMAL_SEND_INTERVAL : Z := 300000.
Definition TRACKING_SEND_INTERVAL : Z := 60000.
Definition EMERGENCY_INTERVAL : Z := 30000.
Definition HEALTH_CHECK_INTERVAL : Z := 60000.

Definition SPEED_LIMIT : Q := 80.
Definition MIN_VALID_SPEED : Q := 0.
Definition MAX_VALID_SPEED : Q := 200.
Definition MIN_SATELLITES : Z := 4.
Definition HDOP_THRESHOLD : Q := 2.

(** ** Data model *)

(** One slot of [errorHistory]. *)
Record ErrorLog := mkErrorLog {
  errorType : string;
  errorMessage : string;
  timestamp : Z
}.

Definition emptyErrorLog : ErrorLog := mkErrorLog EmptyString EmptyString 0.

(** What the GPS decoder reports when [gps.encode] returns true: the
    validity flags and the values of the accessors the sketch reads. *)
Record Sample := mkSample {
  locValid : bool;
  dateValid : bool;
  timeValid : bool;
  s_lat : Q;
  s_lng : Q;
  s_meters : Q;
  s_kmph : Q;
  s_sats : Z;
  s_hdop : Q;
  s_day : Z; s_month : Z; s_year : Z;
  s_hour : Z; s_minute : Z; s_second : Z
}.

(** System state variables. *)
Record Flags := mkFlags {
  gpsFixed : bool;
  gsmReady : bool;
  systemHealthy : bool;
  emergencyMode : bool;
  trackingMode : bool;
  testMode : bool
}.

(** Timing variables, with the function-local static [lastGPSRead]. *)
Record Timers := mkTimers {
  lastSendTime : Z;
  lastBlinkTime : Z;
  lastHealthCheck : Z;
  lastSpeedAlert : Z;
  bootTime : Z;
  lastGPSRead : Z
}.

(** GPS data variables. *)
Record GpsData := mkGpsData {
  latitude : Q;
  longitude : Q;
  prevLatitude : Q;
  prevLongitude : Q;
  altitude : Q;
  speed : Q;
  dateTime : string;
  satellites : Z;
  hdop : Q
}.

(** System statistics. *)
Record Stats := mkStats {
  totalSMSSent : Z;
  totalErrors : Z;
  gpsFixCount : Z;
  maxSpeed : Z;
  lastError : string
}.

(** Outbound message bodies, by template. *)
Inductive Body :=
| BodyLocation (lat lng spd alt : Q) (sats : Z) (time : string)
               (emergency tracking : bool)
| BodySpeedAlert (spd lat lng : Q) (time : string)
| BodyHealthAlert (gpsLost gsmLost : bool) (lastErr time : string)
| BodyStatus (fl : Flags) (moving : option (Q * Z * Z))
             (sent errs : Z) (uptime : string)
| BodySystemTest (time : string) (gpsOk gsmOk : bool)
| BodyStartup
| BodyHelp
| BodyText (text : string).

(** What the sketch writes to the modem's serial line. *)
Inductive Tx :=
| TxLine (line : string)          (* gsmSerial.println(line)            *)
| TxBeginSMS (phone : string)     (* AT+CMGS= with the quoted recipient *)
| TxBody (body : Body)            (* gsmSerial.print(message)           *)
| TxCtrlZ.                        (* gsmSerial.write(26)                *)

Record World := mkWorld {
  clock : Z;                      (* milliseconds since boot             *)
  gsmRx : list (Z * ascii);       (* modem bytes with their arrival time *)
  gsmTx : list Tx;                (* written to the modem, oldest first  *)
  gpsRx : list (Z * Sample);      (* completed sentences, arrival time   *)
  eeprom : Z * Z * Z;             (* offsets 0, 4 and 8                  *)
  gpsWritable : bool;             (* gpsSerial.availableForWrite()       *)
  gsmWritable : bool              (* gsmSerial.availableForWrite()       *)
}.

Record Device := mkDevice {
  flags : Flags;
  timers : Timers;
  gpsData : GpsData;
  stats : Stats;
  errorHistory : list ErrorLog;
  errorIndex : Z;
  ledBlinkPattern : Z;
  world : World
}.

(** A call either returns or ends in [ESP.restart()]. *)
Inductive Outcome :=
| Done (st : Device)
| Restarted (st : Device).

(** *** Field updates *)

Definition set_gpsFixed v (f : Flags) :=
  mkFlags v (gsmReady f) (systemHealthy f) (emergencyMode f) (trackingMode f) (testMode f).
Definition set_gsmReady v (f : Flags) :=
  mkFlags (gpsFixed f) v (systemHealthy f) (emergencyMode f) (trackingMode f) (testMode f).
Definition set_systemHealthy v (f : Flags) :=
  mkFlags (gpsFixed f) (gsmReady f) v (emergencyMode f) (trackingMode f) (testMode f).
Definition set_emergencyMode v (f : Flags) :=
  mkFlags (gpsFixed f) (gsmReady f) (systemHealthy f) v (trackingMode f) (testMode f).
Definition set_trackingMode v (f : Flags) :=
  mkFlags (gpsFixed f) (gsmReady f) (systemHealthy f) (emergencyMode f) v (testMode f).
Definition set_testMode v (f : Flags) :=
  mkFlags (gpsFixed f) (gsmReady f) (systemHealthy f) (emergencyMode f) (trackingMode f) v.

Definition set_lastSendTime v (t : Timers) :=
  mkTimers v (lastBlinkTime t) (lastHealthCheck t) (lastSpeedAlert t) (bootTime t) (lastGPSRead t).
Definition set_lastHealthCheck v (t : Timers) :=
  mkTimers (lastSendTime t) (lastBlinkTime t) v (lastSpeedAlert t) (bootTime t) (lastGPSRead t).
Definition set_lastSpeedAlert v (t : Timers) :=
  mkTimers (lastSendTime t) (lastBlinkTime t) (lastHealthCheck t) v (bootTime t) (lastGPSRead t).
Definition set_lastGPSRead v (t : Timers) :=
  mkTimers (lastSendTime t) (lastBlinkTime t) (lastHealthCheck t) (lastSpeedAlert t) (bootTime t) v.

Definition set_dateTime v (g : GpsData) :=
  mkGpsData (latitude g) (longitude g) (prevLatitude g) (prevLongitude g)
            (altitude g) (speed g) v (satellites g) (hdop g).

Definition set_totalSMSSent v (s : Stats) :=
  mkStats v (totalErrors s) (gpsFixCount s) (maxSpeed s) (lastError s).
Definition set_gpsFixCount v (s : Stats) :=
  mkStats (totalSMSSent s) (totalErrors s) v (maxSpeed s) (lastError s).
Definition set_maxSpeed v (s : Stats) :=
  mkStats (totalSMSSent s) (totalErrors s) (gpsFixCount s) v (lastError s).

Definition set_clock v (w : World) :=
  mkWorld v (gsmRx w) (gsmTx w) (gpsRx w) (eeprom w) (gpsWritable w) (gsmWritable w).
Definition set_gsmRx v (w : World) :=
  mkWorld (clock w) v (gsmTx w) (gpsRx w) (eeprom w) (gpsWritable w) (gsmWritable w).
Definition set_gsmTx v (w : World) :=
  mkWorld (clock w) (gsmRx w) v (gpsRx w) (eeprom w) (gpsWritable w) (gsmWritable w).
Definition set_gpsRx v (w : World) :=
  mkWorld (clock w) (gsmRx w) (gsmTx w) v (eeprom w) (gpsWritable w) (gsmWritable w).
Definition set_eeprom v (w : World) :=
  mkWorld (clock w) (gsmRx w) (gsmTx w) (gpsRx w) v (gpsWritable w) (gsmWritable w).

Definition upd_flags (f : Flags -> Flags) (st : Device) :=
  mkDevice (f (flags st)) (timers st) (gpsData st) (stats st)
           (errorHistory st) (errorIndex st) (ledBlinkPattern st) (world st).
Definition upd_timers (f : Timers -> Timers) (st : Device) :=
  mkDevice (flags st) (f (timers st)) (gpsData st) (stats st)
           (errorHistory st) (errorIndex st) (ledBlinkPattern st) (world st).
Definition upd_gpsData (f : GpsData -> GpsData) (st : Device) :=
  mkDevice (flags st) (timers st) (f (gpsData st)) (stats st)
           (errorHistory st) (errorIndex st) (ledBlinkPattern st) (world st).
Definition upd_stats (f : Stats -> Stats) (st : Device) :=
  mkDevice (flags st) (timers st) (gpsData st) (f (stats st))
           (errorHistory st) (errorIndex st) (ledBlinkPattern st) (world st).
Definition upd_world (f : World -> World) (st : Device) :=
  mkDevice (flags st) (timers st) (gpsData st) (stats st)
           (errorHistory st) (errorIndex st) (ledBlinkPattern st) (f (world st)).
Definition set_ledBlinkPattern (v : Z) (st : Device) :=
  mkDevice (flags st) (timers st) (gpsData st) (stats st)
           (errorHistory st) (errorIndex st) v (world st).

(** ** Clock and serial primitives *)

Definition millis (st : Device) : Z := u32 (clock (world st)).

Definition delay (ms : Z) (st : Device) : Device :=
  upd_world (fun w => set_clock (clock w + ms) w) st.

Definition gsmWrite (t : Tx) (st : Device) : Device :=
  upd_world (fun w => set_gsmTx (gsmTx w ++ [t])%list w) st.

(** The body of [while (millis() - startTime < timeout) if (available) read]:
    every byte that arrives before the deadline is read, in order. *)
Fixpoint drain (deadline : Z) (rx : list (Z * ascii)) : string * list (Z * ascii) :=
  match rx with
  | (t, c) :: rest =>
      if t <? deadline
      then let '(s, rest') := drain deadline rest in (String c s, rest')
      else (EmptyString, rx)
  | [] => (EmptyString, [])
  end.

(** Read the modem for [timeout] ms; the clock ends at the deadline. *)
Definition readFor (timeout : Z) (st : Device) : string * Device :=
  let deadline := clock (world st) + timeout in
  let '(resp, rest) := drain deadline (gsmRx (world st)) in
  (resp, upd_world (fun w => set_clock deadline (set_gsmRx rest w)) st).

(** ** Error log *)

Definition logError (errorType errorMessage : string) (st : Device) : Device :=
  let st1 :=
    upd_stats (fun s => mkStats (totalSMSSent s) (u32 (totalErrors s + 1))
                                (gpsFixCount s) (maxSpeed s)
                                (errorType ++ ": " ++ errorMessage)) st in
  mkDevice (flags st1) (timers st1) (gpsData st1) (stats st1)
           (<[Z.to_nat (errorIndex st1) :=
                mkErrorLog errorType errorMessage (millis st1)]> (errorHistory st1))
           (Z.rem (errorIndex st1 + 1) 10)
           (ledBlinkPattern st1) (world st1).

(** Persisted statistics. *)
Definition loadSystemStats (st : Device) : Device :=
  let '(sent, errs, mx) := eeprom (world st) in
  let sent := if 100000 <? sent then 0 else sent in
  let errs := if 100000 <? errs then 0 else errs in
  let mx := if 500 <? mx then 0 else mx in
  upd_stats (fun s => mkStats sent errs (gpsFixCount s) mx (lastError s)) st.

Definition saveSystemStats (st : Device) : Device :=
  upd_world (set_eeprom (totalSMSSent (stats st), totalErrors (stats st),
                         maxSpeed (stats st))) st.

(** ** Modem command channel *)

Definition contains (s pat : string) : bool := indexOf s pat >? -1.

Definition dquote : string := String (ascii_of_nat 34) EmptyString.

Definition sendATCommand (command : string) (timeout : Z) (st : Device)
  : string * Device :=
  readFor timeout (gsmWrite (TxLine command) st).

Definition resetGSM (st : Device) : Device := delay 3000 (delay 200 st).

Definition testGSMConnection (st : Device) : bool * Device :=
  let '(response, st1) := sendATCommand "AT" 1000 st in
  (indexOf response "OK" >? -1, st1).

(** ** Message submission *)

Inductive SmsWait := WaitOk | WaitError | WaitTimeout.

(** The response loop of [sendSMS]: bytes arriving before the deadline are
    appended one at a time, and after each one the accumulated response is
    searched for "OK" and then for "ERROR".  [now] is the running clock. *)
Fixpoint smsWait (deadline : Z) (response : string) (rx : list (Z * ascii))
                 (now : Z) : SmsWait * string * Z * list (Z * ascii) :=
  match rx with
  | (t, c) :: rest =>
      if t <? deadline then
        let response := response ++ String c EmptyString in
        let now := Z.max now t in
        if indexOf response "OK" >? -1 then (WaitOk, response, now, rest)
        else if indexOf response "ERROR" >? -1 then (WaitError, response, now, rest)
        else smsWait deadline response rest now
      else (WaitTimeout, response, deadline, rx)
  | [] => (WaitTimeout, response, deadline, [])
  end.

(** The three writes of a submission, with their settle delays. *)
Definition submitSMS (phoneNumber : string) (message : Body) (st : Device)
  : Device :=
  let st := delay 1000 (gsmWrite (TxBeginSMS phoneNumber) st) in
  let st := delay 1000 (gsmWrite (TxBody message) st) in
  delay 2000 (gsmWrite TxCtrlZ st).

(** The response loop, run from the current clock with its 15 s deadline. *)
Definition awaitResponse (st : Device) : SmsWait * string * Z * list (Z * ascii) :=
  let startTime := clock (world st) in
  smsWait (startTime + 15000) EmptyString (gsmRx (world st)) startTime.

Definition sendSMS (phoneNumber : string) (message : Body) (st : Device)
  : bool * Device :=
  if negb (gsmReady (flags st)) then
    (false, logError "SMS" "GSM not ready for SMS" st)
  else
    let st := submitSMS phoneNumber message st in
    let '(verdict, response, now, rest) := awaitResponse st in
    let st := upd_world (fun w => set_clock now (set_gsmRx rest w)) st in
    match verdict with
    | WaitOk => (true, st)
    | WaitError => (false, logError "SMS" ("Send failed: " ++ response) st)
    | WaitTimeout => (false, logError "SMS" "Send timeout" st)
    end.

(** ** Notifications *)

Definition locationBody (st : Device) : Body :=
  let g := gpsData st in
  BodyLocation (latitude g) (longitude g) (speed g) (altitude g) (satellites g)
               (dateTime g) (emergencyMode (flags st)) (trackingMode (flags st)).

Definition sendLocationUpdate (reason : string) (st : Device) : Device :=
  let '(ok, st1) := sendSMS ADMIN_PHONE (locationBody st) st in
  if ok
  then upd_stats (fun s => set_totalSMSSent (u32 (totalSMSSent s + 1)) s) st1
  else logError "SMS" "Failed to send location update" st1.

Definition sendStartupNotification (st : Device) : Device :=
  snd (sendSMS ADMIN_PHONE BodyStartup st).

Definition statusBody (st : Device) : Body :=
  let uptime := u32 (millis st - bootTime (timers st)) in
  BodyStatus (flags st)
    (if gpsFixed (flags st)
     then Some (speed (gpsData st), satellites (gpsData st), maxSpeed (stats st))
     else None)
    (totalSMSSent (stats st)) (totalErrors (stats st)) (formatUptime uptime).

Definition sendSystemStatus (st : Device) : Device :=
  snd (sendSMS ADMIN_PHONE (statusBody st) st).

Definition healthAlertBody (st : Device) : Body :=
  BodyHealthAlert (negb (gpsFixed (flags st))) (negb (gsmReady (flags st)))
                  (lastError (stats st)) (dateTime (gpsData st)).

Definition sendHealthAlert (st : Device) : Device :=
  let message := healthAlertBody st in
  let st1 := snd (sendSMS ADMIN_PHONE message st) in
  if 5 <? Z.of_nat (String.length BACKUP_PHONE)
  then snd (sendSMS BACKUP_PHONE message st1)
  else st1.

Definition sendHelpMessage (st : Device) : Device :=
  snd (sendSMS ADMIN_PHONE BodyHelp st).

(** ** Fix validation *)

Definition isValidGPSData (st : Device) : bool :=
  let g := gpsData st in
  if Qeq_bool (latitude g) 0 && Qeq_bool (longitude g) 0 then false
  else if Qlt_bool 90 (Qabs (latitude g)) || Qlt_bool 180 (Qabs (longitude g)) then false
  else if Qlt_bool (speed g) MIN_VALID_SPEED || Qlt_bool MAX_VALID_SPEED (speed g) then false
  else if satellites g <? MIN_SATELLITES then false
  else if Qlt_bool HDOP_THRESHOLD (hdop g) then false
  else true.

Definition speedAlertBody (st : Device) : Body :=
  let g := gpsData st in
  BodySpeedAlert (speed g) (latitude g) (longitude g) (dateTime g).

Definition checkSpeedLimit (st : Device) : Device :=
  if Qlt_bool SPEED_LIMIT (speed (gpsData st)) then
    let currentTime := millis st in
    if 60000 <=? u32 (currentTime - lastSpeedAlert (timers st)) then
      let st := upd_timers (set_lastSpeedAlert currentTime) st in
      let st :=
        if gsmReady (flags st)
        then snd (sendSMS ADMIN_PHONE (speedAlertBody st) st)
        else st in
      (* three buzzer beeps, 100 ms on and 100 ms off *)
      delay 600 st
    else st
  else st.

Definition formatDateTime (s : Sample) : string :=
  formatNumber (s_day s) ++ "/" ++ formatNumber (s_month s) ++ "/" ++
  String_of_Z (s_year s) ++ " " ++
  formatNumber (s_hour s) ++ ":" ++ formatNumber (s_minute s) ++ ":" ++
  formatNumber (s_second s).

(** The assignments made before validation. *)
Definition storeSample (s : Sample) (g : GpsData) : GpsData :=
  mkGpsData (s_lat s) (s_lng s) (latitude g) (longitude g)
            (s_meters s) (s_kmph s) (dateTime g) (s_sats s) (s_hdop s).

(** The body of [if (gps.encode(c))] for one completed sentence. *)
Definition gpsSentence (s : Sample) (st : Device) : Device :=
  let st := upd_timers (set_lastGPSRead (millis st)) st in
  if locValid s && dateValid s && timeValid s then
    let st := upd_gpsData (storeSample s) st in
    if isValidGPSData st then
      let st := upd_gpsData (set_dateTime (formatDateTime s)) st in
      let st :=
        if negb (gpsFixed (flags st)) then
          let st := upd_flags (set_gpsFixed true) st in
          let st := upd_stats (fun x => set_gpsFixCount (u32 (gpsFixCount x + 1)) x) st in
          let st := set_ledBlinkPattern 0 st in
          if gsmReady (flags st) then
            let st := sendLocationUpdate "GPS fix acquired" st in
            upd_timers (set_lastSendTime (millis st)) st
          else st
        else st in
      let st :=
        if Qlt_bool (inject_Z (maxSpeed (stats st))) (speed (gpsData st))
        then upd_stats (set_maxSpeed (truncULong (speed (gpsData st)))) st
        else st in
      checkSpeedLimit st
    else logError "GPS" "Invalid GPS data received" st
  else st.

(** [while (gpsSerial.available() > 0)]: a sentence is read once it has
    arrived; handling one may take time, during which more may arrive. *)
Fixpoint gpsLoop (rx : list (Z * Sample)) (st : Device) : Device :=
  match rx with
  | (t, s) :: rest =>
      if t <=? clock (world st)
      then gpsLoop rest (gpsSentence s st)
      else upd_world (set_gpsRx rx) st
  | [] => upd_world (set_gpsRx []) st
  end.

(** The two checks that end [processGPSData]: thirty seconds without a
    decoded sentence, and no fix after [GPS_TIMEOUT]. *)
Definition checkGPSTimeouts (st : Device) : Device :=
  let st :=
    if gpsFixed (flags st) && (30000 <? u32 (millis st - lastGPSRead (timers st)))
    then logError "GPS" "GPS signal lost"
           (set_ledBlinkPattern 2 (upd_flags (set_gpsFixed false) st))
    else st in
  if negb (gpsFixed (flags st)) && (GPS_TIMEOUT <? millis st)
  then logError "GPS" "GPS timeout - no fix acquired" (set_ledBlinkPattern 2 st)
  else st.

Definition processGPSData (st : Device) : Device :=
  checkGPSTimeouts (gpsLoop (gpsRx (world st)) st).

(** ** Health monitor and report scheduler *)

Definition performHealthCheck (st : Device) : Device :=
  let currentTime := millis st in
  if HEALTH_CHECK_INTERVAL <=? u32 (currentTime - lastHealthCheck (timers st)) then
    let st := upd_timers (set_lastHealthCheck currentTime) st in
    let gpsHealthy :=
      gpsFixed (flags st) && (MIN_SATELLITES <=? satellites (gpsData st)) in
    let '(gsmHealthy, st) := testGSMConnection st in
    let st := upd_flags (set_systemHealthy (gpsHealthy && gsmHealthy)) st in
    let st :=
      if negb (systemHealthy (flags st)) && gsmReady (flags st)
      then sendHealthAlert st
      else st in
    saveSystemStats st
  else st.

Definition interval (st : Device) : Z :=
  if emergencyMode (flags st) then EMERGENCY_INTERVAL
  else if trackingMode (flags st) then TRACKING_SEND_INTERVAL
  else NORMAL_SEND_INTERVAL.

Definition checkLocationUpdate (st : Device) : Device :=
  let currentTime := millis st in
  if gpsFixed (flags st) && gsmReady (flags st)
     && (interval st <=? u32 (currentTime - lastSendTime (timers st)))
  then upd_timers (set_lastSendTime currentTime)
                  (sendLocationUpdate "Scheduled update" st)
  else st.

(** ** Diagnostics *)

Definition testHardwareConnections (st : Device) : bool * Device :=
  (* LED: three blinks of 200 ms on, 200 ms off; buzzer: 100 ms *)
  let st := delay 100 (delay 1200 st) in
  let st := delay 500 st in
  let allTestsPassed := true in
  let allTestsPassed := if gpsWritable (world st) then allTestsPassed else false in
  let st := delay 500 st in
  let allTestsPassed := if gsmWritable (world st) then allTestsPassed else false in
  (allTestsPassed, st).

Fixpoint discardUntil (deadline : Z) (rx : list (Z * Sample)) : list (Z * Sample) :=
  match rx with
  | (t, s) :: rest => if t <? deadline then discardUntil deadline rest else rx
  | [] => []
  end.

(** Five seconds of reading the GPS line and throwing the bytes away. *)
Definition testGPSModule (st : Device) : Device :=
  let deadline := clock (world st) + 5000 in
  upd_world (fun w => set_clock deadline (set_gpsRx (discardUntil deadline (gpsRx w)) w)) st.

Definition testGSMModule (st : Device) : Device :=
  let '(response, st) := sendATCommand "AT" 2000 st in
  if indexOf response "OK" >? -1 then
    let st := snd (sendATCommand "AT+CPIN?" 3000 st) in
    let st := snd (sendATCommand "AT+CREG?" 3000 st) in
    snd (sendATCommand "AT+CSQ" 2000 st)
  else st.

Definition runSystemTest (st : Device) : Device :=
  let st := upd_flags (set_testMode true) st in
  let st := snd (testHardwareConnections st) in
  let st := testGPSModule st in
  let st := testGSMModule st in
  let st :=
    if gsmReady (flags st)
    then snd (sendSMS ADMIN_PHONE
                (BodySystemTest (dateTime (gpsData st)) (gpsFixed (flags st))
                                (gsmReady (flags st))) st)
    else st in
  upd_flags (set_testMode false) st.

(** ** Inbound command interpreter *)

Definition deleteSMS (messageIndex : Z) (st : Device) : Device :=
  delay 1000 (gsmWrite (TxLine ("AT+CMGD=" ++ String_of_Z messageIndex)) st).

(** The read command and the five seconds of collecting its reply, which
    is upper-cased before it is searched. *)
Definition fetchSMS (messageIndex : Z) (st : Device) : string * Device :=
  let st := gsmWrite (TxLine ("AT+CMGR=" ++ String_of_Z messageIndex)) st in
  let st := delay 1000 st in
  let '(response, st) := readFor 5000 st in
  (toUpperCase response, st).

Definition processSMSCommand (messageIndex : Z) (st : Device) : Outcome :=
  let '(response, st) := fetchSMS messageIndex st in
  if indexOf response "TRACK ON" >? -1 then
    let st := upd_flags (set_trackingMode true) st in
    let st := snd (sendSMS ADMIN_PHONE (BodyText ("Enhanced tracking enabled for " ++ BUS_ID)) st) in
    Done (deleteSMS messageIndex st)
  else if indexOf response "TRACK OFF" >? -1 then
    let st := upd_flags (set_trackingMode false) st in
    let st := snd (sendSMS ADMIN_PHONE (BodyText ("Enhanced tracking disabled for " ++ BUS_ID)) st) in
    Done (deleteSMS messageIndex st)
  else if indexOf response "EMERGENCY OFF" >? -1 then
    let st := upd_flags (set_emergencyMode false) st in
    let st := set_ledBlinkPattern (if gpsFixed (flags st) then 0 else 1) st in
    let st := snd (sendSMS ADMIN_PHONE (BodyText ("Emergency mode disabled for " ++ BUS_ID)) st) in
    Done (deleteSMS messageIndex st)
  else if indexOf response "STATUS" >? -1 then
    Done (deleteSMS messageIndex (sendSystemStatus st))
  else if indexOf response "LOCATION" >? -1 then
    let st :=
      if gpsFixed (flags st)
      then sendLocationUpdate "Manual request" st
      else snd (sendSMS ADMIN_PHONE (BodyText ("GPS not fixed. Location unavailable for " ++ BUS_ID)) st) in
    Done (deleteSMS messageIndex st)
  else if indexOf response "REBOOT" >? -1 then
    let st := snd (sendSMS ADMIN_PHONE (BodyText ("Rebooting system for " ++ BUS_ID)) st) in
    let st := delay 2000 st in
    (* ESP.restart() does not return *)
    Restarted st
  else if indexOf response "TEST" >? -1 then
    Done (deleteSMS messageIndex (runSystemTest st))
  else if indexOf response "HELP" >? -1 then
    Done (deleteSMS messageIndex (sendHelpMessage st))
  else
    Done (deleteSMS messageIndex st).

(** ** Modem initialization *)

(** [for (int i = 0; i < 30; i++)]: [n] is the number of attempts left. *)
Fixpoint waitRegistration (n : nat) (st : Device) : Device :=
  match n with
  | O => st
  | S n' =>
      let '(regResponse, st) := sendATCommand "AT+CREG?" 3000 st in
      if (indexOf regResponse ",1" >? -1) || (indexOf regResponse ",5" >? -1)
      then upd_flags (set_gsmReady true) st
      else waitRegistration n' (delay 1000 st)
  end.

Definition initializeGSM (st : Device) : bool * Device :=
  let st := delay 3000 (resetGSM st) in
  let '(probe, st) := sendATCommand "AT" 2000 st in
  (* if (!sendATCommand("AT", 2000).indexOf("OK") > -1): the negation
     applies to the index, and its 0-or-1 result is compared with -1 *)
  if Z.b2z (c_not (indexOf probe "OK")) >? -1 then
    (false, logError "GSM" "No response to AT command" st)
  else
    let st := snd (sendATCommand "ATE0" 2000 st) in
    let st := snd (sendATCommand "AT+CNMI=1,2,0,0,0" 2000 st) in
    let '(simResponse, st) := sendATCommand "AT+CPIN?" 5000 st in
    if indexOf simResponse "READY" =? -1 then
      (false, logError "GSM" ("SIM card not ready: " ++ simResponse) st)
    else
      let st := waitRegistration 30 st in
      if negb (gsmReady (flags st)) then
        (false, logError "GSM" "Network registration failed" st)
      else
        let st := snd (sendATCommand "AT+CMGF=1" 2000 st) in
        let st := snd (sendATCommand ("AT+CSCS=" ++ dquote ++ "GSM" ++ dquote) 2000 st) in
        let st := snd (sendATCommand "AT+CSQ" 2000 st) in
        (true, st).

(** ** The device at power-on *)

Definition bootWorld (modem : list (Z * ascii)) (gpsIn : list (Z * Sample)) : World :=
  mkWorld 0 modem [] gpsIn (0, 0, 0) true true.

Definition bootDevice (w : World) : Device :=
  mkDevice (mkFlags false false true false false false)
           (mkTimers 0 0 0 0 0 0)
           (mkGpsData 0 0 0 0 0 0 EmptyString 0 0)
           (mkStats 0 0 0 0 EmptyString)
           (repeat emptyErrorLog 10) 0 1 w.

(** ** Observations used in the statements *)

(** The bytes of [s], all arriving at time [t]. *)
Definition timed (t : Z) (s : string) : list (Z * ascii) :=
  map (fun c => (t, c)) (list_ascii_of_string s).

(** The text carried by a run of received bytes. *)
Definition bytesOf (rx : list (Z * ascii)) : string :=
  string_of_list_ascii (map snd rx).

(** One message submission as it appears on the modem line. *)
Definition submission (phone : string) (body : Body) : list Tx :=
  [TxBeginSMS phone; TxBody body; TxCtrlZ].

Definition isSpeedAlert (t : Tx) : bool :=
  match t with TxBody (BodySpeedAlert _ _ _ _) => true | _ => false end.

Definition isHealthAlert (t : Tx) : bool :=
  match t with TxBody (BodyHealthAlert _ _ _ _) => true | _ => false end.

Definition countTx (p : Tx -> bool) (st : Device) : nat :=
  List.length (List.filter p (gsmTx (world st))).

(** Which branch of the interpreter a reply text reaches, for the two
    branches the statements single out: the verbs are tried in the order
    TRACK ON, TRACK OFF, EMERGENCY OFF, STATUS, LOCATION, REBOOT, TEST, HELP. *)
Definition reachesEmergencyOff (text : string) : bool :=
  negb (contains text "TRACK ON") && negb (contains text "TRACK OFF")
  && contains text "EMERGENCY OFF".

Definition reachesReboot (text : string) : bool :=
  negb (contains text "TRACK ON") && negb (contains text "TRACK OFF")
  && negb (contains text "EMERGENCY OFF") && negb (contains text "STATUS")
  && negb (contains text "LOCATION") && contains text "REBOOT".

(** The position part of the globals. *)
Definition currentFix (st : Device) : Q * Q * Q * Q * Z * Q :=
  let g := gpsData st in
  (latitude g, longitude g, altitude g, speed g, satellites g, hdop g).

(** The operating mode the two mode flags stand for. *)
Inductive Mode := Normal | Tracking | Emergency.

Definition modeOf (st : Device) : Mode :=
  if emergencyMode (flags st) then Emergency
  else if trackingMode (flags st) then Tracking
  else Normal.

(** The interval table in the specification's words. *)
Definition spec_interval (m : Mode) : Z :=
  match m with
  | Normal => 300000
  | Tracking => 60000
  | Emergency => 30000
  end.

(** The acceptance predicate in the specification's words. *)
Definition spec_accepts (s : Sample) : bool :=
  Qle_bool (Qabs (s_lat s)) 90 && Qle_bool (Qabs (s_lng s)) 180
  && negb (Qeq_bool (s_lat s) 0 && Qeq_bool (s_lng s) 0)
  && Qle_bool 0 (s_kmph s) && Qle_bool (s_kmph s) 200
  && (4 <=? s_sats s) && Qle_bool (s_hdop s) 2.

(** A sequence of [logError] calls; each entry gives the time that passes
    before the call, the error type and the message. *)
Fixpoint logAll (calls : list (Z * string * string)) (st : Device) : Device :=
  match calls with
  | [] => st
  | (d, ty, msg) :: rest => logAll rest (logError ty msg (delay d st))
  end.

(** The records those calls append, starting at clock value [clk]. *)
Fixpoint recordsOf (calls : list (Z * string * string)) (clk : Z) : list ErrorLog :=
  match calls with
  | [] => []
  | (d, ty, msg) :: rest =>
      mkErrorLog ty msg (u32 (clk + d)) :: recordsOf rest (clk + d)
  end.

(** The [min n 10] slots written last, oldest first: the sketch never reads
    [errorHistory], so this is the reading order the write index defines. *)
Definition snapshot (n : nat) (st : Device) : list ErrorLog :=
  let m := Nat.min n 10 in
  map (fun j : nat =>
         default emptyErrorLog
           (errorHistory st !!
              Z.to_nat ((errorIndex st - Z.of_nat m + Z.of_nat j) mod 10)))
      (seq 0 m).

(** * The rest of the sketch *)

From Stdlib Require Import DecimalPos.

(** ** More Arduino [String] and [Stream] operations *)

(** [s.substring(from)]: the text from position [from] on, empty when
    [from] is past the end. *)
Fixpoint substringFrom (from : nat) (s : string) : string :=
  match from, s with
  | O, _ => s
  | S n, String _ s' => substringFrom n s'
  | S _, EmptyString => EmptyString
  end.

Definition isSpace (c : ascii) : bool :=
  let n := nat_of_ascii c in
  Nat.eqb n 32 || (Nat.leb 9 n && Nat.leb n 13).

Definition digitOf (c : ascii) : option Z :=
  let n := nat_of_ascii c in
  if Nat.leb 48 n && Nat.leb n 57 then Some (Z.of_nat (n - 48)) else None.

Fixpoint skipSpace (s : string) : string :=
  match s with
  | String c s' => if isSpace c then skipSpace s' else s
  | EmptyString => s
  end.

Fixpoint atolDigits (acc : Z) (s : string) : Z :=
  match s with
  | String c s' =>
      match digitOf c with
      | Some d => atolDigits (10 * acc + d) s'
      | None => acc
      end
  | EmptyString => acc
  end.

(** [s.toInt()], that is [atol]: leading white space, an optional sign, then
    decimal digits up to the first other character; 0 when there are none.
    Overflow of [long] is not modelled. *)
Definition toInt (s : string) : Z :=
  match skipSpace s with
  | String "-"%char s' => - atolDigits 0 s'
  | String "+"%char s' => atolDigits 0 s'
  | s' => atolDigits 0 s'
  end.

(** The text does not begin with a decimal digit. *)
Definition noDigitAhead (s : string) : Prop :=
  match s with
  | EmptyString => True
  | String c _ => digitOf c = None
  end.

(** [Stream::readString] with the default 1000 ms timeout: each byte is
    awaited for up to a second after the previous one was read. *)
Fixpoint readStringFrom (rx : list (Z * ascii)) (now : Z)
  : string * Z * list (Z * ascii) :=
  match rx with
  | (t, c) :: rest =>
      if t <? now + 1000 then
        let '(s, now', rest') := readStringFrom rest (Z.max now t) in
        (String c s, now', rest')
      else (EmptyString, now + 1000, rx)
  | [] => (EmptyString, now + 1000, [])
  end.

Definition readString (st : Device) : string * Device :=
  let '(s, now, rest) := readStringFrom (gsmRx (world st)) (clock (world st)) in
  (s, upd_world (fun w => set_clock now (set_gsmRx rest w)) st).

(** [gsmSerial.available()]: a byte has arrived and is waiting. *)
Definition gsmAvailable (st : Device) : bool :=
  match gsmRx (world st) with
  | (t, _) :: _ => t <=? clock (world st)
  | [] => false
  end.

(** ** Inbound notifications *)

Definition handleSMSCommunication (st : Device) : Outcome :=
  if gsmAvailable st then
    let '(response, st) := readString st in
    if indexOf response "+CMTI:" >? -1 then
      let indexStart := indexOf response "," + 1 in
      let messageIndex := toInt (substringFrom (Z.to_nat indexStart) response) in
      processSMSCommand messageIndex st
    else Done st
  else Done st.

(** ** Status indicator *)

(** [ledState], the function-local static [blinkCount], and the level last
    written to the LED pin. *)
Record Led := mkLed {
  ledState : bool;
  blinkCount : Z;
  ledPin : bool
}.

Definition set_lastBlinkTime v (t : Timers) :=
  mkTimers (lastSendTime t) v (lastHealthCheck t) (lastSpeedAlert t) (bootTime t) (lastGPSRead t).
Definition set_bootTime v (t : Timers) :=
  mkTimers (lastSendTime t) (lastBlinkTime t) (lastHealthCheck t) (lastSpeedAlert t) v (lastGPSRead t).

Definition blink (period : Z) (led : Led) (st : Device) : Led * Device :=
  let currentTime := millis st in
  if period <=? u32 (currentTime - lastBlinkTime (timers st)) then
    (mkLed (negb (ledState led)) (blinkCount led) (negb (ledState led)),
     upd_timers (set_lastBlinkTime currentTime) st)
  else (led, st).

Definition updateLEDStatus (led : Led) (st : Device) : Led * Device :=
  let currentTime := millis st in
  if ledBlinkPattern st =? 0 then
    (mkLed (ledState led) (blinkCount led) true, st)
  else if ledBlinkPattern st =? 1 then blink 1000 led st
  else if ledBlinkPattern st =? 2 then blink 250 led st
  else if ledBlinkPattern st =? 3 then
    if 200 <=? u32 (currentTime - lastBlinkTime (timers st)) then
      let st := upd_timers (set_lastBlinkTime currentTime) st in
      let count := blinkCount led + 1 in
      if 6 <=? count
      then (mkLed (negb (ledState led)) 0 (negb (ledState led)), delay 1000 st)
      else (mkLed (negb (ledState led)) count (negb (ledState led)), st)
    else (led, st)
  else (led, st).

(** ** Start-up and the main loop *)

Definition nl : string := String (ascii_of_nat 10) EmptyString.

Definition criticalErrorBody : Body :=
  BodyText ("CRITICAL SYSTEM ERROR" ++ nl ++ "Bus: " ++ BUS_ID ++ nl
            ++ "System shutting down due to critical error" ++ nl
            ++ "Manual intervention required" ++ nl
            ++ "Check hardware connections and power supply").

(** [emergencyShutdown] up to its final [while (true)]: the state in which
    the sketch then idles for good. *)
Definition emergencyShutdown (st : Device) : Device :=
  (* LED: twenty flashes of 100 ms on, 100 ms off; alarm: five of 500 + 500 *)
  let st := delay 5000 (delay 4000 st) in
  if gsmReady (flags st) then
    let st := snd (sendSMS ADMIN_PHONE criticalErrorBody st) in
    snd (sendSMS EMERGENCY_PHONE criticalErrorBody st)
  else st.

(** How [setup] ends: the loop starts, or the sketch has halted. *)
Inductive Boot :=
| Running (st : Device)
| Halted (st : Device).

Definition setup (st : Device) : Boot :=
  let st := delay 1000 st in
  let st := loadSystemStats st in
  let st := upd_timers (set_bootTime (millis st)) st in
  let '(hardwareOk, st) := testHardwareConnections st in
  if negb hardwareOk then
    Halted (emergencyShutdown
              (logError "HARDWARE" "Hardware test failed during startup" st))
  else
    let st := delay 1000 st in
    let st := delay 1000 st in
    let '(gsmOk, st) := initializeGSM st in
    let st := if negb gsmOk then logError "GSM" "GSM initialization failed" st else st in
    let st := if gsmReady (flags st) then sendStartupNotification st else st in
    Running st.

(** What the test button does during one pass of [loop]: not pressed; low
    on the first read only; or pressed, with the number of 100 ms polls it
    stays low after the system test. *)
Inductive Button :=
| Idle
| Bounce
| Pressed (heldPolls : nat).

Definition pollTestButton (b : Button) (st : Device) : Device :=
  match b with
  | Idle => st
  | Bounce => delay 50 st
  | Pressed heldPolls =>
      delay (100 * Z.of_nat heldPolls) (runSystemTest (delay 50 st))
  end.

Inductive LoopResult :=
| Continue (led : Led) (st : Device)
| Reboot (st : Device).

Definition loop (b : Button) (led : Led) (st : Device) : LoopResult :=
  let st := pollTestButton b st in
  let st := processGPSData st in
  let '(led, st) := updateLEDStatus led st in
  let st := performHealthCheck st in
  match handleSMSCommunication st with
  | Restarted st => Reboot st
  | Done st =>
      let st := checkLocationUpdate st in
      Continue led (delay 100 st)
  end.

(** Successive passes of [loop], one per button reading. *)
Fixpoint run (inputs : list Button) (led : Led) (st : Device) : LoopResult :=
  match inputs with
  | [] => Continue led st
  | b :: rest =>
      match loop b led st with
      | Continue led st => run rest led st
      | Reboot st => Reboot st
      end
  end.

Definition bootLed : Led := mkLed false 0 false.

(** ** Further observations *)

(** A write that belongs to a message submission. *)
Definition isSmsTx (t : Tx) : bool :=
  match t with
  | TxBeginSMS _ | TxBody _ | TxCtrlZ => true
  | TxLine _ => false
  end.

Definition isLocationReport (t : Tx) : bool :=
  match t with TxBody (BodyLocation _ _ _ _ _ _ _ _) => true | _ => false end.

(** The error log's write index is a valid slot of the ten-slot array. *)
Definition logInBounds (st : Device) : Prop :=
  0 <= errorIndex st < 10 /\ List.length (errorHistory st) = 10%nat.

(** Relative to [st0], the state [st] still has the modem marked not ready
    and has written nothing more of any message submission. *)
Definition quietFrom (st0 st : Device) : Prop :=
  gsmReady (flags st) = false /\ countTx isSmsTx st = countTx isSmsTx st0.

(** Passes of [processGPSData] separated by the given waits. *)
Fixpoint gpsPasses (waits : list Z) (st : Device) : Device :=
  match waits with
  | [] => st
  | d :: rest => gpsPasses rest (processGPSData (delay d st))
  end.

(** * Properties *)

Open Scope list_scope.

(** ** Error log *)

Lemma u32_succ_succ (a b : Z) : u32 (u32 a + b) = u32 (a + b).
Proof. unfold u32. apply Zplus_mod_idemp_l. Qed.

Lemma logAll_app (a b : list (Z * string * string)) (st : Device) :
  logAll (a ++ b) st = logAll b (logAll a st).
Proof.
  revert st. induction a as [| [[d ty] msg] a IH]; intros st; simpl; [reflexivity |].
  apply IH.
Qed.

Lemma recordsOf_length (calls : list (Z * string * string)) (clk : Z) :
  List.length (recordsOf calls clk) = List.length calls.
Proof.
  revert clk. induction calls as [| [[d ty] msg] calls IH]; intros clk; simpl;
    [reflexivity | now rewrite IH].
Qed.

Lemma recordsOf_app (a b : list (Z * string * string)) (st : Device) :
  recordsOf (a ++ b) (clock (world st)) =
  recordsOf a (clock (world st)) ++ recordsOf b (clock (world (logAll a st))).
Proof.
  revert st. induction a as [| [[d ty] msg] a IH]; intros st; simpl; [reflexivity |].
  f_equal. apply (IH (logError ty msg (delay d st))).
Qed.

Lemma ring_slots (calls : list (Z * string * string)) (st : Device) :
  0 <= errorIndex st < 10 ->
  List.length (errorHistory st) = 10%nat ->
  let st' := logAll calls st in
  let n := List.length calls in
  errorIndex st' = (errorIndex st + Z.of_nat n) mod 10
  /\ List.length (errorHistory st') = 10%nat
  /\ forall k : nat, (k < n)%nat -> (n - k <= 10)%nat ->
       errorHistory st' !! Z.to_nat ((errorIndex st + Z.of_nat k) mod 10)
       = recordsOf calls (clock (world st)) !! k.
Proof.
  intros Hidx Hlen. induction calls as [| [[d ty] msg] calls IH] using rev_ind; simpl.
  - repeat split; [ rewrite Z.add_0_r, Z.mod_small; lia | assumption | lia ].
  - destruct IH as (IHi & IHl & IHs).
    rewrite logAll_app, recordsOf_app, length_app. simpl.
    set (st' := logAll calls st) in *.
    set (n := List.length calls) in *.
    assert (Hi' : 0 <= errorIndex st' < 10) by (rewrite IHi; apply Z.mod_pos_bound; lia).
    repeat split.
    + rewrite Z.rem_mod_nonneg by lia. rewrite IHi.
      rewrite Zplus_mod_idemp_l. f_equal. lia.
    + rewrite length_insert. exact IHl.
    + intros k Hk Hwin.
      destruct (decide (k = n)) as [-> | Hne].
      * rewrite <- IHi.
        rewrite list_lookup_insert_eq by lia.
        rewrite lookup_app_r by (rewrite recordsOf_length; lia).
        rewrite recordsOf_length. fold n. replace (n - n)%nat with 0%nat by lia.
        reflexivity.
      * rewrite list_lookup_insert_ne.
        -- rewrite IHs by lia.
           rewrite lookup_app_l by (rewrite recordsOf_length; lia). reflexivity.
        -- rewrite IHi. intros Heq. apply Z2Nat.inj in Heq;
             try (apply Z.mod_pos_bound; lia).
           assert (Hk' : 0 < Z.of_nat n - Z.of_nat k < 10) by lia.
           revert Heq Hk'. generalize (Z.of_nat n) (Z.of_nat k). intros a b.
           Z.to_euclidean_division_equations. lia.
Qed.

Lemma logAll_totalErrors (calls : list (Z * string * string)) (st : Device) :
  u32 (totalErrors (stats (logAll calls st))) =
  u32 (totalErrors (stats st) + Z.of_nat (List.length calls)).
Proof.
  revert st. induction calls as [| [[d ty] msg] calls IH]; intros st.
  - simpl. now rewrite Z.add_0_r.
  - cbn [logAll]. rewrite IH. cbn [List.length].
    change (totalErrors (stats (logError ty msg (delay d st))))
      with (u32 (totalErrors (stats st) + 1)).
    rewrite u32_succ_succ. f_equal. lia.
Qed.

Lemma logError_totalErrors (ty msg : string) (st : Device) :
  totalErrors (stats (logError ty msg st)) = u32 (totalErrors (stats st) + 1).
Proof. reflexivity. Qed.

(** C6. The error log is a ring of ten slots written in arrival order: after
    any sequence of [logError] calls the slots written last hold exactly the
    last [min n 10] records appended, oldest first; the [k]-th record sits
    in slot [(errorIndex + k) mod 10] for as long as it is among the last
    ten, so the eleventh append overwrites the first record; and every call
    adds one to [totalErrors] (an [unsigned long], hence modulo 2^32). *)
Theorem error_log_ring_fifo (calls : list (Z * string * string)) (st : Device) :
  0 <= errorIndex st < 10 ->
  List.length (errorHistory st) = 10%nat ->
  let n := List.length calls in
  let st' := logAll calls st in
  snapshot n st' = drop (n - 10) (recordsOf calls (clock (world st)))
  /\ List.length (snapshot n st') = Nat.min n 10
  /\ List.length (errorHistory st') = 10%nat
  /\ (forall k : nat, (k < n)%nat -> (n - k <= 10)%nat ->
      errorHistory st' !! Z.to_nat ((errorIndex st + Z.of_nat k) mod 10)
      = recordsOf calls (clock (world st)) !! k)
  /\ (forall ty msg s,
        totalErrors (stats (logError ty msg s)) = u32 (totalErrors (stats s) + 1)
        /\ (totalErrors (stats s) + 1 < 2 ^ 32 -> 0 <= totalErrors (stats s) ->
            totalErrors (stats (logError ty msg s)) = totalErrors (stats s) + 1))
  /\ u32 (totalErrors (stats st')) = u32 (totalErrors (stats st) + Z.of_nat n).
Proof.
  intros Hidx Hlen n st'.
  destruct (ring_slots calls st Hidx Hlen) as (Hi & Hl & Hs).
  fold st' n in Hi, Hl, Hs.
  assert (Hsnap : snapshot n st' = drop (n - 10) (recordsOf calls (clock (world st)))).
  { apply list_eq. intros j. unfold snapshot.
    rewrite list_lookup_fmap, lookup_drop.
    destruct (decide (j < Nat.min n 10)%nat) as [Hj | Hj].
    - rewrite lookup_seq_lt by lia. simpl.
      rewrite Hi.
      replace ((errorIndex st + Z.of_nat n) mod 10 - Z.of_nat (Nat.min n 10) + Z.of_nat j)
        with ((errorIndex st + Z.of_nat n) mod 10 + (Z.of_nat j - Z.of_nat (Nat.min n 10))) by lia.
      rewrite Zplus_mod_idemp_l.
      replace (errorIndex st + Z.of_nat n + (Z.of_nat j - Z.of_nat (Nat.min n 10)))
        with (errorIndex st + Z.of_nat (n - 10 + j)) by lia.
      rewrite Hs by lia.
      destruct (lookup_lt_is_Some_2 (recordsOf calls (clock (world st))) (n - 10 + j)) as [r Hr].
      { rewrite recordsOf_length. fold n. lia. }
      rewrite Hr. reflexivity.
    - rewrite lookup_seq_ge by lia. simpl.
      symmetry. apply lookup_ge_None_2. rewrite recordsOf_length. fold n. lia. }
  split; [exact Hsnap |].
  split; [unfold snapshot; rewrite length_map, length_seq; reflexivity |].
  split; [exact Hl |].
  split; [exact Hs |].
  split; [| apply logAll_totalErrors].
  intros ty msg s. rewrite logError_totalErrors. split; [reflexivity |].
  intros Hlt Hge. apply Z.mod_small. lia.
Qed.

Lemma error_log_ring_fifo_witness :
  let calls := map (fun k => (100, "GPS", String_of_Z k)) [1;2;3;4;5;6;7;8;9;10;11] in
  let st := bootDevice (bootWorld [] []) in
  snapshot 11 (logAll calls st) = drop 1 (recordsOf calls 0)
  /\ errorHistory (logAll calls st) !! 0%nat = Some (mkErrorLog "GPS" "11" 1100).
Proof.
  intros calls st.
  split; [ apply (error_log_ring_fifo calls st); [ simpl; lia | reflexivity ]
         | reflexivity ].
Defined.

(** ** What the building blocks leave alone *)

(** Case analysis on an innermost scrutinee of the goal. *)
Ltac break_match :=
  match goal with
  | |- context [match ?x with _ => _ end] =>
      lazymatch x with
      | context [match _ with _ => _ end] => fail
      | _ => destruct x eqn:?
      end
  end.

Ltac frame := intros; cbv beta delta [sendSMS sendATCommand readFor testGSMConnection
                        sendLocationUpdate sendHealthAlert sendSystemStatus
                        sendHelpMessage sendStartupNotification] ;
              cbv zeta; repeat break_match; simpl in *;
              (reflexivity || discriminate).

Lemma sendSMS_flags p b st : flags (snd (sendSMS p b st)) = flags st.
Proof. frame. Qed.

Lemma sendSMS_timers p b st : timers (snd (sendSMS p b st)) = timers st.
Proof. frame. Qed.

Lemma sendSMS_gpsData p b st : gpsData (snd (sendSMS p b st)) = gpsData st.
Proof. frame. Qed.

Lemma sendSMS_led p b st : ledBlinkPattern (snd (sendSMS p b st)) = ledBlinkPattern st.
Proof. frame. Qed.

Lemma sendSMS_totalSMSSent p b st :
  totalSMSSent (stats (snd (sendSMS p b st))) = totalSMSSent (stats st).
Proof. frame. Qed.

Lemma sendSMS_maxSpeed p b st :
  maxSpeed (stats (snd (sendSMS p b st))) = maxSpeed (stats st).
Proof. frame. Qed.

Lemma sendSMS_gpsFixCount p b st :
  gpsFixCount (stats (snd (sendSMS p b st))) = gpsFixCount (stats st).
Proof. frame. Qed.

Lemma sendSMS_eeprom p b st :
  eeprom (world (snd (sendSMS p b st))) = eeprom (world st).
Proof. frame. Qed.

Lemma sendSMS_gpsRx p b st :
  gpsRx (world (snd (sendSMS p b st))) = gpsRx (world st).
Proof. frame. Qed.

Lemma sendSMS_gsmTx p b st :
  gsmTx (world (snd (sendSMS p b st))) =
  gsmTx (world st) ++ (if gsmReady (flags st) then submission p b else []).
Proof.
  unfold sendSMS. destruct (gsmReady (flags st)); cbv zeta; simpl.
  - repeat break_match; simpl; rewrite <- !app_assoc; reflexivity.
  - now rewrite app_nil_r.
Qed.

Lemma sendSMS_totalErrors p b st :
  totalErrors (stats (snd (sendSMS p b st))) =
  if fst (sendSMS p b st) then totalErrors (stats st)
  else u32 (totalErrors (stats st) + 1).
Proof. frame. Qed.

Lemma readFor_flags t st : flags (snd (readFor t st)) = flags st.
Proof. frame. Qed.

Lemma sendATCommand_flags c t st : flags (snd (sendATCommand c t st)) = flags st.
Proof. frame. Qed.

Lemma testGSMConnection_flags st : flags (snd (testGSMConnection st)) = flags st.
Proof. frame. Qed.

Lemma sendLocationUpdate_flags reason st :
  flags (sendLocationUpdate reason st) = flags st.
Proof.
  unfold sendLocationUpdate.
  pose proof (sendSMS_flags ADMIN_PHONE (locationBody st) st) as H.
  destruct (sendSMS _ _ _) as [[] st1]; exact H.
Qed.

Lemma sendHealthAlert_flags st : flags (sendHealthAlert st) = flags st.
Proof.
  unfold sendHealthAlert. cbv zeta.
  destruct (5 <? _); now rewrite ?sendSMS_flags.
Qed.

Lemma sendSystemStatus_flags st : flags (sendSystemStatus st) = flags st.
Proof. apply sendSMS_flags. Qed.

Lemma sendHelpMessage_flags st : flags (sendHelpMessage st) = flags st.
Proof. apply sendSMS_flags. Qed.

Lemma checkSpeedLimit_flags st : flags (checkSpeedLimit st) = flags st.
Proof.
  unfold checkSpeedLimit. cbv zeta.
  repeat break_match; simpl; rewrite ?sendSMS_flags; reflexivity.
Qed.

Lemma testGSMModule_flags st : flags (testGSMModule st) = flags st.
Proof.
  unfold testGSMModule.
  pose proof (sendATCommand_flags "AT" 2000 st) as H.
  destruct (sendATCommand "AT" 2000 st) as [response st1]. simpl in H.
  destruct (indexOf response "OK" >? -1); [| exact H].
  now rewrite !sendATCommand_flags.
Qed.

Create Rewrite HintDb frame_db.

#[local] Hint Rewrite sendSMS_flags readFor_flags sendATCommand_flags
  testGSMConnection_flags sendLocationUpdate_flags sendHealthAlert_flags
  sendSystemStatus_flags sendHelpMessage_flags checkSpeedLimit_flags
  testGSMModule_flags : frame_db.

Lemma runSystemTest_flags st :
  flags (runSystemTest st) = set_testMode false (flags st).
Proof.
  unfold runSystemTest. cbv zeta.
  set (tested := testGSMModule _).
  assert (Ht : flags tested = set_testMode true (flags st))
    by (subst tested; rewrite testGSMModule_flags; reflexivity).
  destruct (gsmReady (flags tested)); cbn [flags upd_flags];
    rewrite ?sendSMS_flags, Ht; reflexivity.
Qed.

Lemma runSystemTest_mode st :
  emergencyMode (flags (runSystemTest st)) = emergencyMode (flags st)
  /\ trackingMode (flags (runSystemTest st)) = trackingMode (flags st).
Proof. rewrite runSystemTest_flags. split; reflexivity. Qed.

Lemma gpsSentence_mode s st :
  emergencyMode (flags (gpsSentence s st)) = emergencyMode (flags st)
  /\ trackingMode (flags (gpsSentence s st)) = trackingMode (flags st).
Proof.
  unfold gpsSentence. cbv zeta.
  repeat break_match; repeat (autorewrite with frame_db; simpl); split; reflexivity.
Qed.

Lemma gpsLoop_mode rx : forall st,
  emergencyMode (flags (gpsLoop rx st)) = emergencyMode (flags st)
  /\ trackingMode (flags (gpsLoop rx st)) = trackingMode (flags st).
Proof.
  induction rx as [| [t s] rx IH]; intros st; simpl; [split; reflexivity |].
  destruct (t <=? clock (world st)); [| split; reflexivity].
  destruct (IH (gpsSentence s st)) as [He Ht].
  destruct (gpsSentence_mode s st) as [He' Ht'].
  split; congruence.
Qed.

Lemma checkGPSTimeouts_mode st :
  emergencyMode (flags (checkGPSTimeouts st)) = emergencyMode (flags st)
  /\ trackingMode (flags (checkGPSTimeouts st)) = trackingMode (flags st).
Proof.
  unfold checkGPSTimeouts. cbv zeta.
  repeat break_match; simpl; split; reflexivity.
Qed.

Lemma processGPSData_mode st :
  emergencyMode (flags (processGPSData st)) = emergencyMode (flags st)
  /\ trackingMode (flags (processGPSData st)) = trackingMode (flags st).
Proof.
  unfold processGPSData.
  destruct (checkGPSTimeouts_mode (gpsLoop (gpsRx (world st)) st)) as [He Ht].
  destruct (gpsLoop_mode (gpsRx (world st)) st) as [He' Ht'].
  split; congruence.
Qed.

Lemma performHealthCheck_mode st :
  emergencyMode (flags (performHealthCheck st)) = emergencyMode (flags st)
  /\ trackingMode (flags (performHealthCheck st)) = trackingMode (flags st).
Proof.
  unfold performHealthCheck. cbv zeta.
  destruct (HEALTH_CHECK_INTERVAL <=? _); [| split; reflexivity].
  pose proof (testGSMConnection_flags
                (upd_timers (set_lastHealthCheck (millis st)) st)) as H.
  destruct (testGSMConnection _) as [gsmHealthy st1]. simpl in H.
  repeat break_match; simpl; autorewrite with frame_db; simpl; rewrite H;
    split; reflexivity.
Qed.

Lemma checkLocationUpdate_flags st : flags (checkLocationUpdate st) = flags st.
Proof.
  unfold checkLocationUpdate. cbv zeta.
  break_match; simpl; autorewrite with frame_db; reflexivity.
Qed.

(** ** Message submission *)

Lemma smsWait_verdict (deadline : Z) (rx : list (Z * ascii)) :
  forall (response : string) (now : Z),
    contains response "OK" = false ->
    contains response "ERROR" = false ->
    match smsWait deadline response rx now with
    | (WaitOk, r, _, _) => contains r "OK" = true
    | (WaitError, r, _, _) => contains r "ERROR" = true /\ contains r "OK" = false
    | (WaitTimeout, r, n, _) =>
        contains r "OK" = false /\ contains r "ERROR" = false /\ n = deadline
    end.
Proof.
  induction rx as [| [t c] rx IH]; intros response now Hok Herr; simpl.
  - auto.
  - destruct (t <? deadline); [| auto].
    fold (contains (response ++ String c EmptyString)%string "OK").
    fold (contains (response ++ String c EmptyString)%string "ERROR").
    destruct (contains (response ++ String c EmptyString)%string "OK") eqn:E1; [exact E1 |].
    destruct (contains (response ++ String c EmptyString)%string "ERROR") eqn:E2; [auto |].
    apply IH; assumption.
Qed.

Lemma string_append_assoc (a b c : string) :
  ((a ++ b) ++ c)%string = (a ++ (b ++ c))%string.
Proof. induction a as [| x a IH]; simpl; [reflexivity | now rewrite IH]. Qed.

Lemma string_append_empty (a : string) : (a ++ EmptyString)%string = a.
Proof. induction a as [| x a IH]; simpl; [reflexivity | now rewrite IH]. Qed.

(** What the loop has read when it stops: a prefix of the incoming bytes,
    all of which arrived before the deadline; at a timeout nothing that
    arrived before the deadline is left unread. *)
Lemma smsWait_reads (deadline : Z) (rx : list (Z * ascii)) :
  forall (response : string) (now : Z),
    match smsWait deadline response rx now with
    | (verdict, r, _, rest) =>
        exists consumed,
          rx = consumed ++ rest
          /\ r = (response ++ bytesOf consumed)%string
          /\ Forall (fun b => fst b < deadline) consumed
          /\ (verdict = WaitTimeout ->
              match rest with
              | [] => True
              | (t, _) :: _ => deadline <= t
              end)
    end.
Proof.
  induction rx as [| [t c] rx IH]; intros response now; simpl.
  - exists []. simpl. rewrite string_append_empty. auto.
  - destruct (t <? deadline) eqn:Ht.
    + apply Z.ltb_lt in Ht.
      assert (Hone : forall rest, exists consumed,
                 (t, c) :: rest = consumed ++ rest
                 /\ (response ++ String c EmptyString)%string
                    = (response ++ bytesOf consumed)%string
                 /\ Forall (fun b => fst b < deadline) consumed)
        by (intros rest; exists [(t, c)]; repeat split; auto).
      destruct (indexOf (response ++ String c EmptyString)%string "OK" >? -1).
      { destruct (Hone rx) as (consumed & H1 & H2 & H3).
        exists consumed. repeat split; auto. discriminate. }
      destruct (indexOf (response ++ String c EmptyString)%string "ERROR" >? -1).
      { destruct (Hone rx) as (consumed & H1 & H2 & H3).
        exists consumed. repeat split; auto. discriminate. }
      specialize (IH (response ++ String c EmptyString)%string (Z.max now t)).
      destruct (smsWait _ _ _ _) as [[[verdict r] n] rest].
      destruct IH as (consumed & H1 & H2 & H3 & H4).
      exists ((t, c) :: consumed). repeat split.
      * simpl. now rewrite H1.
      * rewrite H2, string_append_assoc. reflexivity.
      * constructor; assumption.
      * exact H4.
    + apply Z.ltb_ge in Ht.
      exists []. simpl. rewrite string_append_empty. auto.
Qed.

Lemma contains_empty_OK : contains EmptyString "OK" = false.
Proof. reflexivity. Qed.

Lemma contains_empty_ERROR : contains EmptyString "ERROR" = false.
Proof. reflexivity. Qed.

Lemma submitSMS_gsmTx p b st :
  gsmTx (world (submitSMS p b st)) = gsmTx (world st) ++ submission p b.
Proof. unfold submitSMS. simpl. rewrite <- !app_assoc. reflexivity. Qed.

Lemma sendLocationUpdate_gsmTx reason st :
  gsmTx (world (sendLocationUpdate reason st)) =
  gsmTx (world st) ++
  (if gsmReady (flags st) then submission ADMIN_PHONE (locationBody st) else []).
Proof.
  unfold sendLocationUpdate.
  pose proof (sendSMS_gsmTx ADMIN_PHONE (locationBody st) st) as H.
  destruct (sendSMS ADMIN_PHONE (locationBody st) st) as [[] st1]; exact H.
Qed.




(** A reply in which "ERROR" completes first is a failure even though "OK"
    follows before the deadline. *)
Example error_before_ok_is_failure :
  let st := upd_flags (set_gsmReady true)
              (bootDevice (bootWorld (timed 5000 "+CMS ERROR: 500" ++ timed 6000 "OK") [])) in
  fst (sendSMS ADMIN_PHONE BodyHelp st) = false
  /\ lastError (stats (snd (sendSMS ADMIN_PHONE BodyHelp st)))
     = "SMS: Send failed: +CMS ERROR"
  /\ bytesOf (gsmRx (world (snd (sendSMS ADMIN_PHONE BodyHelp st)))) = ": 500OK".
Proof. vm_compute. repeat split. Qed.

(** ** Fix validation and the fix state *)

Lemma isValidGPSData_spec (s : Sample) (st : Device) :
  isValidGPSData (upd_gpsData (storeSample s) st) = spec_accepts s.
Proof.
  unfold isValidGPSData, spec_accepts, Qlt_bool, MIN_VALID_SPEED,
    MAX_VALID_SPEED, MIN_SATELLITES, HDOP_THRESHOLD.
  cbn [gpsData upd_gpsData storeSample latitude longitude speed satellites hdop].
  rewrite (Z.ltb_antisym 4 (s_sats s)).
  destruct (Qeq_bool (s_lat s) 0), (Qeq_bool (s_lng s) 0),
    (Qle_bool (Qabs (s_lat s)) 90), (Qle_bool (Qabs (s_lng s)) 180),
    (Qle_bool 0 (s_kmph s)), (Qle_bool (s_kmph s) 200), (4 <=? s_sats s),
    (Qle_bool (s_hdop s) 2); reflexivity.
Qed.

Lemma sendLocationUpdate_timers reason st :
  timers (sendLocationUpdate reason st) = timers st.
Proof.
  unfold sendLocationUpdate.
  pose proof (sendSMS_timers ADMIN_PHONE (locationBody st) st) as H.
  destruct (sendSMS _ _ _) as [[] st1]; exact H.
Qed.

Lemma checkSpeedLimit_lastGPSRead st :
  lastGPSRead (timers (checkSpeedLimit st)) = lastGPSRead (timers st).
Proof.
  unfold checkSpeedLimit. cbv zeta.
  repeat break_match; simpl; rewrite ?sendSMS_timers; reflexivity.
Qed.

Lemma gpsSentence_lastGPSRead s st :
  lastGPSRead (timers (gpsSentence s st)) = millis st.
Proof.
  unfold gpsSentence. cbv zeta.
  repeat break_match;
    rewrite ?checkSpeedLimit_lastGPSRead; simpl;
    rewrite ?sendLocationUpdate_timers; reflexivity.
Qed.

Lemma gpsSentence_accepts s st :
  locValid s && dateValid s && timeValid s = true ->
  spec_accepts s = true ->
  gpsFixed (flags (gpsSentence s st)) = true.
Proof.
  intros Hvalid Hacc. unfold gpsSentence. cbv zeta.
  rewrite Hvalid.
  change (upd_gpsData (storeSample s) (upd_timers (set_lastGPSRead (millis st)) st))
    with (upd_timers (set_lastGPSRead (millis st)) (upd_gpsData (storeSample s) st)).
  assert (Hv : isValidGPSData
                 (upd_timers (set_lastGPSRead (millis st))
                    (upd_gpsData (storeSample s) st)) = true)
    by (rewrite <- Hacc; apply (isValidGPSData_spec s st)).
  rewrite Hv. rewrite checkSpeedLimit_flags.
  repeat break_match; simpl in *; rewrite ?sendLocationUpdate_flags; simpl;
    try reflexivity; try assumption.
  all: destruct (gpsFixed (flags st)); simpl in *; congruence.
Qed.

Lemma gpsSentence_not_accepted s st :
  locValid s && dateValid s && timeValid s && spec_accepts s = false ->
  flags (gpsSentence s st) = flags st.
Proof.
  intros H. unfold gpsSentence. cbv zeta.
  destruct (locValid s && dateValid s && timeValid s); [| reflexivity].
  change (upd_gpsData (storeSample s) (upd_timers (set_lastGPSRead (millis st)) st))
    with (upd_timers (set_lastGPSRead (millis st)) (upd_gpsData (storeSample s) st)).
  change (isValidGPSData
            (upd_timers (set_lastGPSRead (millis st)) (upd_gpsData (storeSample s) st)))
    with (isValidGPSData (upd_gpsData (storeSample s) st)).
  rewrite isValidGPSData_spec. simpl in H. rewrite H. reflexivity.
Qed.



(** No fix by 180001 ms: the pass logs the acquisition timeout, the mode is
    still Normal, and the next pass logs it again. *)
Example acquisition_timeout_logged :
  let st := delay 180001 (bootDevice (bootWorld [] [])) in
  lastError (stats (processGPSData st)) = "GPS: GPS timeout - no fix acquired"
  /\ totalErrors (stats (processGPSData st)) = 1
  /\ modeOf (processGPSData st) = Normal
  /\ totalErrors (stats (processGPSData (delay 100 (processGPSData st)))) = 2.
Proof. vm_compute. repeat split. Qed.




(** ** Speed alerts *)

Lemma countTx_app (p : Tx -> bool) (st st' : Device) (extra : list Tx) :
  gsmTx (world st') = gsmTx (world st) ++ extra ->
  countTx p st' = (countTx p st + List.length (List.filter p extra))%nat.
Proof.
  intros H. unfold countTx. rewrite H, List.filter_app, length_app. reflexivity.
Qed.

Lemma checkSpeedLimit_effect (st : Device) :
  let fires :=
    Qlt_bool SPEED_LIMIT (speed (gpsData st))
    && (60000 <=? u32 (millis st - lastSpeedAlert (timers st))) in
  (if fires
   then lastSpeedAlert (timers (checkSpeedLimit st)) = millis st
        /\ countTx isSpeedAlert (checkSpeedLimit st)
           = (countTx isSpeedAlert st + if gsmReady (flags st) then 1 else 0)%nat
   else checkSpeedLimit st = st).
Proof.
  intros fires. subst fires. unfold checkSpeedLimit. cbv zeta.
  destruct (Qlt_bool SPEED_LIMIT (speed (gpsData st))); [| reflexivity].
  destruct (60000 <=? _); [| reflexivity]. cbn [andb].
  cbn [flags upd_timers].
  destruct (gsmReady (flags st)) eqn:Hready.
  - split.
    + simpl. rewrite sendSMS_timers. reflexivity.
    + rewrite (countTx_app _ st _ (submission ADMIN_PHONE (speedAlertBody st)));
        [reflexivity |].
      simpl. rewrite sendSMS_gsmTx. simpl. rewrite Hready. reflexivity.
  - split; [reflexivity |]. unfold countTx. simpl. lia.
Qed.




(** ** Report scheduler *)

Lemma elapsed_no_wrap (now past : Z) :
  0 <= past <= now -> now < 2 ^ 32 -> u32 (now - past) = now - past.
Proof. intros H1 H2. unfold u32. apply Z.mod_small. lia. Qed.

(** C2. The report interval is a function of the mode flags alone: 30000 ms
    in emergency mode (whatever the tracking flag), else 60000 ms in tracking
    mode, else 300000 ms.  [checkLocationUpdate] submits a scheduled report
    exactly when a fix is held, the modem is ready and the time since
    [lastSendTime] (unsigned subtraction, equal to the plain difference
    while the clock has not wrapped) has reached the interval; it then sets
    [lastSendTime] to the time read on entry, and otherwise changes
    nothing. *)
Theorem scheduled_report_interval (st : Device) :
  let now := millis st in
  let due :=
    gpsFixed (flags st) && gsmReady (flags st)
    && (interval st <=? u32 (now - lastSendTime (timers st))) in
  let st' := checkLocationUpdate st in
  interval st = spec_interval (modeOf st)
  /\ interval st = (if emergencyMode (flags st) then 30000
                   else if trackingMode (flags st) then 60000 else 300000)
  /\ (if due
      then gsmTx (world st')
           = gsmTx (world st) ++ submission ADMIN_PHONE (locationBody st)
           /\ lastSendTime (timers st') = now
      else st' = st)
  /\ (0 <= lastSendTime (timers st) <= clock (world st) ->
      clock (world st) < 2 ^ 32 ->
      u32 (now - lastSendTime (timers st))
      = clock (world st) - lastSendTime (timers st)).
Proof.
  intros now due st'.
  split; [unfold interval, modeOf; repeat break_match; reflexivity |].
  split; [reflexivity |].
  split.
  - subst st'. unfold checkLocationUpdate. cbv zeta. fold now. fold due.
    destruct due eqn:Hdue; [| reflexivity].
    subst due. apply andb_prop in Hdue as [Hdue _]. apply andb_prop in Hdue as [_ Hready].
    split; [| reflexivity].
    simpl. rewrite sendLocationUpdate_gsmTx, Hready. reflexivity.
  - intros H1 H2. subst now. unfold millis.
    replace (u32 (clock (world st))) with (clock (world st))
      by (symmetry; apply Z.mod_small; lia).
    apply elapsed_no_wrap; [| assumption]. lia.
Qed.

(** ** Inbound commands *)

Lemma readFor_gsmTx t st : gsmTx (world (snd (readFor t st))) = gsmTx (world st).
Proof. frame. Qed.

Lemma fetchSMS_flags idx st : flags (snd (fetchSMS idx st)) = flags st.
Proof.
  unfold fetchSMS. cbv zeta.
  pose proof (readFor_flags 5000
    (delay 1000 (gsmWrite (TxLine ("AT+CMGR=" ++ String_of_Z idx)%string) st))) as H.
  destruct (readFor 5000 _) as [response st1]. exact H.
Qed.

Lemma fetchSMS_gsmTx idx st :
  gsmTx (world (snd (fetchSMS idx st)))
  = gsmTx (world st) ++ [TxLine ("AT+CMGR=" ++ String_of_Z idx)%string].
Proof.
  unfold fetchSMS. cbv zeta.
  pose proof (readFor_gsmTx 5000
    (delay 1000 (gsmWrite (TxLine ("AT+CMGR=" ++ String_of_Z idx)%string) st))) as H.
  destruct (readFor 5000 _) as [response st1]. exact H.
Qed.

Lemma deleteSMS_last idx st :
  last (gsmTx (world (deleteSMS idx st)))
  = Some (TxLine ("AT+CMGD=" ++ String_of_Z idx)%string).
Proof. unfold deleteSMS. simpl. apply last_snoc. Qed.

Lemma processSMSCommand_cases (messageIndex : Z) (st : Device) :
  let fetched := fetchSMS messageIndex st in
  if reachesReboot (fst fetched)
  then processSMSCommand messageIndex st
       = Restarted
           (delay 2000
              (snd (sendSMS ADMIN_PHONE
                      (BodyText ("Rebooting system for " ++ BUS_ID)%string)
                      (snd fetched))))
  else exists st1, processSMSCommand messageIndex st
                   = Done (deleteSMS messageIndex st1).
Proof.
  intros fetched. unfold processSMSCommand. fold fetched.
  destruct fetched as [text st2]. cbn [fst snd].
  unfold reachesReboot, contains.
  destruct (indexOf text "TRACK ON" >? -1); cbn [negb andb]; [eauto |].
  destruct (indexOf text "TRACK OFF" >? -1); cbn [negb andb]; [eauto |].
  destruct (indexOf text "EMERGENCY OFF" >? -1); cbn [negb andb]; [eauto |].
  destruct (indexOf text "STATUS" >? -1); cbn [negb andb]; [eauto |].
  destruct (indexOf text "LOCATION" >? -1); cbn [negb andb]; [eauto |].
  destruct (indexOf text "REBOOT" >? -1); cbn [negb andb]; [reflexivity |].
  destruct (indexOf text "TEST" >? -1); [eauto |].
  destruct (indexOf text "HELP" >? -1); eauto.
Qed.

(** C5 (the code departs from the claim). Every call that returns ends by
    writing the delete command for the message index, whether or not a verb
    was recognised.  A message that reaches the REBOOT branch does not
    return: the sketch restarts after the acknowledgement, and the only
    things written to the modem during the call are the read command and
    that acknowledgement; the delete command is never written and the
    message stays in the store. *)
Theorem processSMSCommand_delete_unless_reboot (messageIndex : Z) (st : Device) :
  match processSMSCommand messageIndex st with
  | Done st' =>
      reachesReboot (fst (fetchSMS messageIndex st)) = false
      /\ last (gsmTx (world st'))
         = Some (TxLine ("AT+CMGD=" ++ String_of_Z messageIndex)%string)
  | Restarted st' =>
      reachesReboot (fst (fetchSMS messageIndex st)) = true
      /\ gsmTx (world st')
         = gsmTx (world st)
           ++ TxLine ("AT+CMGR=" ++ String_of_Z messageIndex)%string
           :: (if gsmReady (flags st)
               then submission ADMIN_PHONE
                      (BodyText ("Rebooting system for " ++ BUS_ID)%string)
               else [])
  end.
Proof.
  pose proof (processSMSCommand_cases messageIndex st) as H. cbv zeta in H.
  destruct (reachesReboot _) in H |- *.
  - rewrite H. split; [reflexivity |]. simpl.
    rewrite sendSMS_gsmTx, fetchSMS_flags, fetchSMS_gsmTx.
    rewrite <- app_assoc. reflexivity.
  - destruct H as [st1 ->]. split; [reflexivity | apply deleteSMS_last].
Qed.

(** A message whose text is "reboot": the call ends in a restart and the
    delete command for index 3 is not among the modem writes. *)
Example reboot_message_not_deleted :
  let st := upd_flags (set_gsmReady true)
              (bootDevice (bootWorld (timed 1500 "reboot" ++ timed 9000 "OK") [])) in
  exists st',
    processSMSCommand 3 st = Restarted st'
    /\ gsmTx (world st')
       = [TxLine "AT+CMGR=3"; TxBeginSMS ADMIN_PHONE;
          TxBody (BodyText "Rebooting system for BUS-001"); TxCtrlZ]
    /\ ~ In (TxLine "AT+CMGD=3") (gsmTx (world st')).
Proof.
  eexists. split; [vm_compute; reflexivity |].
  split; [reflexivity |].
  simpl. intros [H | [H | [H | [H | []]]]]; discriminate.
Qed.

(** A message with no recognised verb is deleted all the same. *)
Example unrecognised_message_deleted :
  let st := bootDevice (bootWorld (timed 1500 "hello driver") []) in
  exists st',
    processSMSCommand 4 st = Done st'
    /\ gsmTx (world st') = [TxLine "AT+CMGR=4"; TxLine "AT+CMGD=4"].
Proof. eexists. split; [vm_compute; reflexivity | reflexivity]. Qed.

(** ** Health monitor *)

Lemma sendHealthAlert_gsmTx st :
  gsmReady (flags st) = true ->
  gsmTx (world (sendHealthAlert st))
  = gsmTx (world st)
    ++ submission ADMIN_PHONE (healthAlertBody st)
    ++ submission BACKUP_PHONE (healthAlertBody st).
Proof.
  intros Hready. unfold sendHealthAlert. cbv zeta.
  change (5 <? Z.of_nat (String.length BACKUP_PHONE)) with true. cbv iota.
  rewrite !sendSMS_gsmTx, sendSMS_flags, Hready, <- app_assoc. reflexivity.
Qed.

Lemma sendHealthAlert_timers st : timers (sendHealthAlert st) = timers st.
Proof.
  unfold sendHealthAlert. cbv zeta.
  destruct (5 <? _); now rewrite ?sendSMS_timers.
Qed.

Lemma readFor_upd_timers t x f st :
  readFor t (gsmWrite x (upd_timers f st))
  = (fst (readFor t (gsmWrite x st)), upd_timers f (snd (readFor t (gsmWrite x st)))).
Proof. unfold readFor. simpl. destruct (drain _ _). reflexivity. Qed.




(** ** Emergency mode *)

Lemma processSMSCommand_emergency (messageIndex : Z) (st : Device) :
  match processSMSCommand messageIndex st with
  | Done st' | Restarted st' =>
      emergencyMode (flags st')
      = emergencyMode (flags st)
        && negb (reachesEmergencyOff (fst (fetchSMS messageIndex st)))
  end.
Proof.
  unfold processSMSCommand.
  pose proof (fetchSMS_flags messageIndex st) as H.
  destruct (fetchSMS messageIndex st) as [text st2]. cbn [fst snd] in *.
  destruct (runSystemTest_mode st2) as [Ht _].
  set (tested := runSystemTest st2) in *. clearbody tested.
  unfold reachesEmergencyOff, contains.
  repeat break_match; simpl; autorewrite with frame_db; simpl;
    rewrite ?Ht, ?H; destruct (emergencyMode (flags st)); reflexivity.
Qed.

(** C3 (the code departs from the claim). No operation of the control loop
    sets [emergencyMode]: the health check, fix processing, the report
    scheduler and the system test leave it as it is, and the command
    interpreter leaves it as it is unless the message reaches the
    EMERGENCY OFF branch, which clears it.  So the flag is indeed cleared by
    nothing but that command, but it is never raised: a health check that
    finds the system unhealthy does not enter emergency mode, and the
    sketch reads no panic input. *)
Theorem emergency_mode_never_entered (st : Device) :
  emergencyMode (flags (performHealthCheck st)) = emergencyMode (flags st)
  /\ emergencyMode (flags (processGPSData st)) = emergencyMode (flags st)
  /\ emergencyMode (flags (checkLocationUpdate st)) = emergencyMode (flags st)
  /\ emergencyMode (flags (runSystemTest st)) = emergencyMode (flags st)
  /\ forall messageIndex,
       match processSMSCommand messageIndex st with
       | Done st' | Restarted st' =>
           emergencyMode (flags st')
           = emergencyMode (flags st)
             && negb (reachesEmergencyOff (fst (fetchSMS messageIndex st)))
       end.
Proof.
  split; [apply performHealthCheck_mode |].
  split; [apply processGPSData_mode |].
  split; [now rewrite checkLocationUpdate_flags |].
  split; [apply runSystemTest_mode |].
  intros messageIndex. apply processSMSCommand_emergency.
Qed.

(** Sixty seconds after boot, no fix and a silent modem: the health check
    finds the system unhealthy and emergency mode stays off. *)
Example unhealthy_check_stays_out_of_emergency :
  let st := delay 60000 (bootDevice (bootWorld [] [])) in
  systemHealthy (flags st) = true
  /\ systemHealthy (flags (performHealthCheck st)) = false
  /\ emergencyMode (flags (performHealthCheck st)) = false
  /\ interval (performHealthCheck st) = NORMAL_SEND_INTERVAL.
Proof. vm_compute. repeat split. Qed.

(** ** Modem initialization *)

Lemma probe_guard_always_true (x : Z) : (Z.b2z (c_not x) >? -1) = true.
Proof. destruct (c_not x); reflexivity. Qed.

(** C10 (the code departs from the claim). Whatever the modem answers to the
    liveness probe, and in particular when the answer contains "OK",
    [initializeGSM] logs "No response to AT command" and returns false
    straight after the probe: the echo-disable command is never written and
    [gsmReady] is left as it was. *)
Theorem initializeGSM_aborts_after_probe (st : Device) :
  let probed := sendATCommand "AT" 2000 (delay 3000 (resetGSM st)) in
  initializeGSM st
  = (false, logError "GSM" "No response to AT command" (snd probed))
  /\ gsmTx (world (snd (initializeGSM st))) = gsmTx (world st) ++ [TxLine "AT"]
  /\ gsmReady (flags (snd (initializeGSM st))) = gsmReady (flags st)
  /\ lastError (stats (snd (initializeGSM st))) = "GSM: No response to AT command".
Proof.
  intros probed.
  assert (H : initializeGSM st
              = (false, logError "GSM" "No response to AT command" (snd probed))).
  { unfold initializeGSM. cbv zeta. fold probed.
    destruct probed as [probe st1]. now rewrite probe_guard_always_true. }
  rewrite H. split; [reflexivity |]. cbn [snd].
  subst probed. unfold sendATCommand, readFor. cbv zeta.
  destruct (drain _ _) as [resp rest]. repeat split.
Qed.

(** The probe is answered "OK" two seconds into the probe window, and
    initialization still fails. *)
Example initializeGSM_rejects_OK :
  let st := bootDevice (bootWorld (timed 7000 "OK") []) in
  contains (fst (sendATCommand "AT" 2000 (delay 3000 (resetGSM st)))) "OK" = true
  /\ fst (initializeGSM st) = false
  /\ gsmTx (world (snd (initializeGSM st))) = [TxLine "AT"]
  /\ gsmReady (flags (snd (initializeGSM st))) = false.
Proof. vm_compute. repeat split. Qed.
